(** * Plugin registry of NetBox ([netbox/extras/plugins/__init__.py])

    A shallow embedding of the plugin registration subsystem: the Python
    objects it inspects, the process-wide registry ([registry['plugins']]),
    [PluginConfig.validate], the menu item and menu button constructors and
    the registrar functions. *)

From Stdlib Require Import Ascii.
From stdpp Require Import base gmap strings list fin_maps.

Local Set Warnings "-register-all".

(** ** Python runtime types and objects *)

(** The runtime classes the code tests against: built-ins, the plugin
    classes of this module, and user-defined subclasses (single base). *)
Inductive pytype :=
| TObject
| TNoneType
| TStr
| TList
| TTuple
| TPluginTemplateExtension
| TPluginMenuItem
| TPluginMenuButton
| TSub (name : string) (base : pytype).

#[global] Instance pytype_eq_dec : EqDecision pytype.
Proof. solve_decision. Defined.

(** [issubclass(t, u)]: [t] is [u] or one of its bases is; every class
    derives from [object]. *)
Fixpoint issubclass (t u : pytype) : bool :=
  if decide (t = u) then true
  else match t with
       | TObject => false
       | TSub _ b => issubclass b u
       | _ => bool_decide (u = TObject)
       end.

(** Python objects as seen by the registry code. A [PluginMenuItem] or
    [PluginMenuButton] carries its runtime class (the class itself or a
    subclass) and the attributes set by its [__init__]. *)
Inductive obj :=
| ONone
| OStr (s : string)
| OSeq (t : pytype) (elems : list obj)
| OMenuItem (t : pytype) (link link_text : string)
    (permissions : list obj) (buttons : list obj)
| OMenuButton (t : pytype) (link title icon_class color : string)
    (permissions : list obj)
| OOther (t : pytype).

(** [type(o)] *)
Definition type_of (o : obj) : pytype :=
  match o with
  | ONone => TNoneType
  | OStr _ => TStr
  | OSeq t _ => t
  | OMenuItem t _ _ _ _ => t
  | OMenuButton t _ _ _ _ _ => t
  | OOther t => t
  end.

(** [isinstance(o, c)] *)
Definition isinstance (o : obj) (c : pytype) : bool := issubclass (type_of o) c.

(** [type(o) not in (list, tuple)]: an exact type test. *)
Definition not_list_or_tuple (o : obj) : bool :=
  negb (bool_decide (type_of o = TList) || bool_decide (type_of o = TTuple)).

(** Iteration over a sequence object. *)
Definition seq_elems (o : obj) : list obj :=
  match o with
  | OSeq _ es => es
  | _ => []
  end.

(** [str(o)], used in the exception messages. *)
Definition type_name (t : pytype) : string :=
  match t with
  | TObject => "object"
  | TNoneType => "NoneType"
  | TStr => "str"
  | TList => "list"
  | TTuple => "tuple"
  | TPluginTemplateExtension => "extras.plugins.PluginTemplateExtension"
  | TPluginMenuItem => "extras.plugins.PluginMenuItem"
  | TPluginMenuButton => "extras.plugins.PluginMenuButton"
  | TSub n _ => n
  end.

Definition py_str (o : obj) : string :=
  match o with
  | ONone => "None"
  | OStr s => s
  | o => "<" ++ type_name (type_of o) ++ " object>"
  end.

(** Exceptions raised by the module ([ImproperlyConfigured] is Django's
    configuration error). *)
Inductive exc :=
| TypeError (msg : string)
| ValueError (msg : string)
| ImproperlyConfigured (msg : string).

(** Code that may raise: [inl] carries the exception, [inr] the value;
    binding propagates the first exception. *)
#[global] Instance exc_bind : MBind (sum exc) :=
  fun A B (k : A -> exc + B) (m : exc + A) =>
    match m with
    | inl e => inl e
    | inr a => k a
    end.

(** ** [PluginConfig.validate] *)

(** [packaging.version] is an external library: the model starts from
    parsed versions and their comparison.  [Version.__lt__] and
    [Version.__gt__] compare the version keys, a total preorder. *)
Section Validate.

Variable Version : Type.
Variable vcompare : Version -> Version -> comparison.

Definition vlt (a b : Version) : bool :=
  match vcompare a b with Lt => true | _ => false end.
Definition vgt (a b : Version) : bool :=
  match vcompare a b with Gt => true | _ => false end.

(** The class attributes [validate] reads. [default_settings] is a dict,
    given by its [items()] in iteration order. *)
Record PluginConfig := {
  module : string;
  min_version_str : string;
  max_version_str : string;
  min_version : option Version;
  max_version : option Version;
  default_settings : list (string * obj);
  required_settings : list string
}.

Definition min_version_msg (cls : PluginConfig) : string :=
  "Plugin " ++ module cls ++ " requires NetBox minimum version "
    ++ min_version_str cls ++ ".".
Definition max_version_msg (cls : PluginConfig) : string :=
  "Plugin " ++ module cls ++ " requires NetBox maximum version "
    ++ max_version_str cls ++ ".".
Definition missing_setting_msg (cls : PluginConfig) (setting : string) : string :=
  "Plugin " ++ module cls ++ " requires '" ++ setting
    ++ "' to be present in the PLUGINS_CONFIG section of configuration.py.".

(** Enforce version constraints. *)
Definition check_versions (cls : PluginConfig) (current_version : Version)
    : option exc :=
  match min_version cls with
  | Some mn =>
      if vlt current_version mn then Some (ImproperlyConfigured (min_version_msg cls))
      else match max_version cls with
           | Some mx =>
               if vgt current_version mx
               then Some (ImproperlyConfigured (max_version_msg cls))
               else None
           | None => None
           end
  | None =>
      match max_version cls with
      | Some mx =>
          if vgt current_version mx
          then Some (ImproperlyConfigured (max_version_msg cls))
          else None
      | None => None
      end
  end.

(** Verify required configuration settings. *)
Fixpoint check_required (cls : PluginConfig) (settings : list string)
    (user_config : gmap string obj) : option exc :=
  match settings with
  | [] => None
  | setting :: rest =>
      match user_config !! setting with
      | None => Some (ImproperlyConfigured (missing_setting_msg cls setting))
      | Some _ => check_required cls rest user_config
      end
  end.

(** Apply default configuration values: one iteration of the loop. *)
Definition apply_default (user_config : gmap string obj) (kv : string * obj)
    : gmap string obj :=
  match user_config !! kv.1 with
  | None => <[kv.1 := kv.2]> user_config
  | Some _ => user_config
  end.

Definition apply_defaults (defaults : list (string * obj))
    (user_config : gmap string obj) : gmap string obj :=
  fold_left apply_default defaults user_config.

(** [validate(cls, user_config, netbox_version)]: the exception raised (if
    any) and the caller's [user_config] after the call. *)
Definition validate (cls : PluginConfig) (user_config : gmap string obj)
    (current_version : Version) : option exc * gmap string obj :=
  match check_versions cls current_version with
  | Some e => (Some e, user_config)
  | None =>
      match check_required cls (required_settings cls) user_config with
      | Some e => (Some e, user_config)
      | None => (None, apply_defaults (default_settings cls) user_config)
      end
  end.

End Validate.

Arguments min_version {_}.
Arguments max_version {_}.
Arguments module {_}.
Arguments default_settings {_}.
Arguments required_settings {_}.

(** ** Menu items and menu buttons *)

Definition permissions_msg : string := "Permissions must be passed as a tuple or list.".
Definition buttons_msg : string := "Buttons must be passed as a tuple or list.".
Definition color_msg : string :=
  "Button color must be a choice within ButtonColorChoices.".

(** [PluginMenuItem(link, link_text, permissions=None, buttons=None)];
    [None] keeps the class attributes [permissions = []], [buttons = []]. *)
Definition PluginMenuItem_init (link link_text : string) (permissions buttons : obj)
    : exc + obj :=
  match permissions with
  | ONone => inr []
  | p => if not_list_or_tuple p then inl (TypeError permissions_msg)
         else inr (seq_elems p)
  end ≫= fun perms =>
  match buttons with
  | ONone => inr []
  | b => if not_list_or_tuple b then inl (TypeError buttons_msg)
         else inr (seq_elems b)
  end ≫= fun btns =>
  inr (OMenuItem TPluginMenuItem link link_text perms btns).

(** [color in ButtonColorChoices.values()]: equality with one of the
    palette's strings. *)
Definition color_in (color : obj) (palette : list string) : bool :=
  match color with
  | OStr c => bool_decide (c ∈ palette)
  | _ => false
  end.

Definition color_str (color : obj) : string :=
  match color with OStr c => c | _ => "" end.

(** [PluginMenuButton(link, title, icon_class, color=None, permissions=None)].
    [ButtonColorChoices] lives outside this module: its [values()] and its
    [DEFAULT] are parameters. *)
Definition PluginMenuButton_init (palette : list string) (default_color : string)
    (link title icon_class : string) (color permissions : obj) : exc + obj :=
  match permissions with
  | ONone => inr []
  | p => if not_list_or_tuple p then inl (TypeError permissions_msg)
         else inr (seq_elems p)
  end ≫= fun perms =>
  match color with
  | ONone => inr default_color
  | c => if negb (color_in c palette) then inl (ValueError color_msg)
         else inr (color_str c)
  end ≫= fun col =>
  inr (OMenuButton TPluginMenuButton link title icon_class col perms).

(** [menu_link.buttons]: the attribute set by [__init__], or the class
    attribute [buttons = []]. *)
Definition buttons_of (o : obj) : list obj :=
  match o with
  | OMenuItem _ _ _ _ bs => bs
  | _ => []
  end.

(** ** The registry: [registry['plugins']] *)

(** A candidate passed to [register_template_extensions]: a class (with its
    [model] class attribute) or an instance. *)
Inductive candidate :=
| CClass (cls : pytype) (model : option string)
| CInstance (cls : pytype).

Definition cand_str (c : candidate) : string :=
  match c with
  | CClass t _ => "<class '" ++ type_name t ++ "'>"
  | CInstance t => "<" ++ type_name t ++ " object>"
  end.

Record Registry := {
  graphql_schemas : list obj;
  menus : list obj;
  menu_items : gmap string (list obj);
  preferences : gmap string obj;
  template_extensions : gmap string (list candidate)
}.

(** The initial value, set at import time. *)
Definition empty_registry : Registry := {|
  graphql_schemas := [];
  menus := [];
  menu_items := ∅;
  preferences := ∅;
  template_extensions := ∅
|}.

Definition set_template_extensions (r : Registry) (te : gmap string (list candidate))
    : Registry := {|
  graphql_schemas := graphql_schemas r;
  menus := menus r;
  menu_items := menu_items r;
  preferences := preferences r;
  template_extensions := te
|}.

Definition set_menu_items (r : Registry) (mi : gmap string (list obj)) : Registry := {|
  graphql_schemas := graphql_schemas r;
  menus := menus r;
  menu_items := mi;
  preferences := preferences r;
  template_extensions := template_extensions r
|}.

(** [registry['plugins']['template_extensions'][model].append(c)] on a
    [defaultdict(list)]. *)
Definition te_append (model : string) (c : candidate) (r : Registry) : Registry :=
  set_template_extensions r
    (<[model := default [] (template_extensions r !! model) ++ [c]]>
       (template_extensions r)).

Definition instance_msg (c : candidate) : string :=
  "PluginTemplateExtension class " ++ cand_str c ++ " was passed as an instance!".
Definition not_subclass_msg (c : candidate) : string :=
  cand_str c ++ " is not a subclass of extras.plugins.PluginTemplateExtension!".
Definition no_model_msg (c : candidate) : string :=
  "PluginTemplateExtension class " ++ cand_str c ++ " does not define a valid model!".

(** [register_template_extensions(class_list)]: each class is validated and
    then appended, in one loop. *)
Fixpoint register_template_extensions (class_list : list candidate) (r : Registry)
    : option exc * Registry :=
  match class_list with
  | [] => (None, r)
  | c :: rest =>
      match c with
      | CInstance _ => (Some (TypeError (instance_msg c)), r)
      | CClass t m =>
          if negb (issubclass t TPluginTemplateExtension)
          then (Some (TypeError (not_subclass_msg c)), r)
          else match m with
               | None => (Some (TypeError (no_model_msg c)), r)
               | Some model => register_template_extensions rest (te_append model c r)
               end
      end
  end.

(** The validation loop of [register_menu_items]: the first failure. *)
Fixpoint check_buttons (buttons : list obj) : option exc :=
  match buttons with
  | [] => None
  | b :: rest =>
      if negb (isinstance b TPluginMenuButton)
      then Some (TypeError (py_str b ++ " must be an instance of extras.plugins.PluginMenuButton"))
      else check_buttons rest
  end.

Fixpoint check_menu_items (class_list : list obj) : option exc :=
  match class_list with
  | [] => None
  | menu_link :: rest =>
      if negb (isinstance menu_link TPluginMenuItem)
      then Some (TypeError (py_str menu_link ++ " must be an instance of extras.plugins.PluginMenuItem"))
      else match check_buttons (buttons_of menu_link) with
           | Some e => Some e
           | None => check_menu_items rest
           end
  end.

(** [register_menu_items(section_name, class_list)]: validate the whole
    list, then store it under [section_name]. [class_list] is given by its
    items. *)
Definition register_menu_items (section_name : string) (class_list : list obj) (r : Registry)
    : option exc * Registry :=
  match check_menu_items class_list with
  | Some e => (Some e, r)
  | None => (None, set_menu_items r (<[section_name := class_list]> (menu_items r)))
  end.

(** [register_menu(menu)]. [PluginMenu] is a plain class of this module. *)
Definition TPluginMenu : pytype := TSub "extras.plugins.PluginMenu" TObject.

Definition set_menus (r : Registry) (ms : list obj) : Registry := {|
  graphql_schemas := graphql_schemas r;
  menus := ms;
  menu_items := menu_items r;
  preferences := preferences r;
  template_extensions := template_extensions r
|}.

Definition set_graphql_schemas (r : Registry) (gs : list obj) : Registry := {|
  graphql_schemas := gs;
  menus := menus r;
  menu_items := menu_items r;
  preferences := preferences r;
  template_extensions := template_extensions r
|}.

Definition set_preferences (r : Registry) (ps : gmap string obj) : Registry := {|
  graphql_schemas := graphql_schemas r;
  menus := menus r;
  menu_items := menu_items r;
  preferences := ps;
  template_extensions := template_extensions r
|}.

Definition register_menu (menu : obj) (r : Registry) : option exc * Registry :=
  if negb (isinstance menu TPluginMenu)
  then (Some (TypeError (py_str menu ++ " must be an instance of extras.plugins.PluginMenu")), r)
  else (None, set_menus r (menus r ++ [menu])).

(** [register_graphql_schema(graphql_schema)]: no validation. *)
Definition register_graphql_schema (graphql_schema : obj) (r : Registry) : Registry :=
  set_graphql_schemas r (graphql_schemas r ++ [graphql_schema]).

(** [register_user_preferences(plugin_name, preferences)]. *)
Definition register_user_preferences (plugin_name : string) (prefs : obj) (r : Registry)
    : Registry :=
  set_preferences r (<[plugin_name := prefs]> (preferences r)).

(** ** [PluginConfig.ready] *)

Fixpoint has_dot (s : string) : bool :=
  match s with
  | EmptyString => false
  | String c rest => bool_decide (c = "."%char) || has_dot rest
  end.

(** [s.rsplit('.', 1)[-1]]: the part after the last ['.'], or [s] itself. *)
Fixpoint rsplit_dot_last (s : string) : string :=
  match s with
  | EmptyString => EmptyString
  | String c rest =>
      if has_dot rest then rsplit_dot_last rest
      else if bool_decide (c = "."%char) then rest else s
  end.

(** Python's [bool(o)] on objects whose classes define neither
    [__bool__] nor [__len__] (such as the plugin classes and plain class
    instances): [None], empty strings and empty sequences are false, every
    other such object is true. It is used on the concrete inputs below;
    [ready] itself takes [bool()] as a parameter, since the truth value of
    an arbitrary object ([False], [0], [{}], ...) is not determined by its
    type alone. *)
Definition py_truthy (o : obj) : bool :=
  match o with
  | ONone => false
  | OStr s => bool_decide (s <> EmptyString)
  | OSeq _ es => bool_decide (es <> [])
  | _ => true
  end.

(** Sequencing of registry steps: the first exception stops the rest. *)
Definition and_then (s : option exc * Registry) (k : Registry -> option exc * Registry)
    : option exc * Registry :=
  match s with
  | (Some e, r) => (Some e, r)
  | (None, r) => k r
  end.

(** The objects [ready] finds with [import_object] (from
    [extras.plugins.utils], [None] when the path does not exist). The
    sequences are given by their items. *)
Record PluginModule := {
  name : string;
  verbose_name : string;
  search_indexes_obj : option (list obj);
  template_extensions_obj : option (list candidate);
  menu_obj : obj;
  menu_items_obj : option (list obj);
  graphql_schema_obj : obj;
  user_preferences_obj : obj
}.

Section Ready.

(** [register_search()(idx)] of [netbox.search]: it writes
    [registry['search']], outside [registry['plugins']], and may raise. *)
Variable register_search : obj -> option exc.

(** Python's [bool()], applied by [if menu := import_object(...)]. *)
Variable py_bool : obj -> bool.

Fixpoint register_search_all (idxs : list obj) : option exc :=
  match idxs with
  | [] => None
  | idx :: rest =>
      match register_search idx with
      | Some e => Some e
      | None => register_search_all rest
      end
  end.

Definition ready (p : PluginModule) (r : Registry) : option exc * Registry :=
  let plugin_name := rsplit_dot_last (name p) in
  and_then
    (match register_search_all (default [] (search_indexes_obj p)) with
     | Some e => (Some e, r)
     | None => (None, r)
     end) (fun r =>
  and_then
    (match template_extensions_obj p with
     | Some l => register_template_extensions l r
     | None => (None, r)
     end) (fun r =>
  and_then
    (if py_bool (menu_obj p) then register_menu (menu_obj p) r else (None, r)) (fun r =>
  and_then
    (match menu_items_obj p with
     | Some ((_ :: _) as items) => register_menu_items (verbose_name p) items r
     | _ => (None, r)
     end) (fun r =>
  and_then
    (match graphql_schema_obj p with
     | ONone => (None, r)
     | g => (None, register_graphql_schema g r)
     end) (fun r =>
    match user_preferences_obj p with
    | ONone => (None, r)
    | u => (None, register_user_preferences plugin_name u r)
    end))))).

End Ready.

(** ** [PluginTemplateExtension.render] *)

(** The [extra_context] argument: [None], a [dict] (or a subclass of it),
    or any other object. *)
Inductive extra_context_arg :=
| ECNone
| ECDict (d : gmap string obj)
| ECOther (o : obj).

Section Render.

(** [get_template(template_name).render(context)] of Django. *)
Variable render_template : string -> gmap string obj -> string.

(** [{**self.context, **extra_context}]: the later mapping wins. *)
Definition render (context : gmap string obj) (template_name : string)
    (extra_context : extra_context_arg) : exc + string :=
  match extra_context with
  | ECNone => inr (render_template template_name (∅ ∪ context))
  | ECDict d => inr (render_template template_name (d ∪ context))
  | ECOther _ => inl (TypeError "extra_context must be a dictionary")
  end.

End Render.

(** ** Sanity checks on concrete inputs *)

Definition acme : PluginConfig nat := {|
  module := "acme";
  min_version_str := "35";
  max_version_str := "40";
  min_version := Some 35;
  max_version := Some 40;
  default_settings := [("timeout", OStr "30")];
  required_settings := ["api_key"]
|}.

Example validate_acme_ok :
  validate nat Nat.compare acme {[ "api_key" := OStr "xyz" ]} 37
  = (None, {[ "api_key" := OStr "xyz"; "timeout" := OStr "30" ]}).
Proof. reflexivity. Qed.

Example validate_acme_missing :
  validate nat Nat.compare acme ∅ 37
  = (Some (ImproperlyConfigured (missing_setting_msg nat acme "api_key")), ∅).
Proof. reflexivity. Qed.

Example validate_acme_too_old :
  fst (validate nat Nat.compare acme ∅ 30)
  = Some (ImproperlyConfigured (min_version_msg nat acme)).
Proof. reflexivity. Qed.

(** ** Properties of [validate] *)

(** The first occurrence of a key among the default settings. *)
Fixpoint default_for (k : string) (defaults : list (string * obj)) : option obj :=
  match defaults with
  | [] => None
  | (k', v) :: rest => if decide (k = k') then Some v else default_for k rest
  end.

Lemma apply_defaults_lookup (defaults : list (string * obj)) (cfg : gmap string obj) k :
  apply_defaults defaults cfg !! k =
  match cfg !! k with
  | Some x => Some x
  | None => default_for k defaults
  end.
Proof.
  unfold apply_defaults. revert cfg.
  induction defaults as [|[k' v] rest IH]; intros cfg; simpl.
  - by destruct (cfg !! k).
  - rewrite IH. unfold apply_default; simpl.
    destruct (cfg !! k') as [y|] eqn:Hk'.
    + case_decide; subst; [by rewrite Hk'|done].
    + case_decide; subst.
      * by rewrite lookup_insert_eq, Hk'.
      * by rewrite lookup_insert_ne by congruence.
Qed.

Lemma default_for_In (defaults : list (string * obj)) k v :
  NoDup defaults.*1 -> default_for k defaults = Some v <-> (k, v) ∈ defaults.
Proof.
  induction defaults as [|[k' v'] rest IH]; simpl; intros Hnd.
  - split; [done|]. intros H. inversion H.
  - apply NoDup_cons in Hnd as [Hnin Hnd]. rewrite elem_of_cons.
    case_decide; subst.
    + split.
      * intros [= <-]. by left.
      * intros [[= <-]|Hin]; [done|].
        exfalso. apply Hnin. apply list_elem_of_fmap. by exists (k', v).
    + rewrite IH by done. split; [by right|].
      intros [[= -> ->]|Hin]; [done|done].
Qed.

Lemma default_for_perm (d d' : list (string * obj)) k :
  NoDup d.*1 -> d ≡ₚ d' -> default_for k d = default_for k d'.
Proof.
  intros Hnd Hp.
  assert (Hnd' : NoDup d'.*1) by (by rewrite <- Hp).
  destruct (default_for k d) as [v|] eqn:E.
  - apply default_for_In in E; [|done]. symmetry.
    apply default_for_In; [done|]. by rewrite <- Hp.
  - destruct (default_for k d') as [v|] eqn:E'; [|done].
    apply default_for_In in E'; [|done]. rewrite <- Hp in E'.
    apply (default_for_In d k v Hnd) in E'. congruence.
Qed.

Section VersionOrder.

Context {Version : Type} (vcompare : Version -> Version -> comparison).

(** The comparison of parsed versions is a total preorder. *)
Hypothesis vcompare_gt_trans :
  forall a b c, vcompare a b = Gt -> vcompare b c = Gt -> vcompare a c = Gt.
Hypothesis vcompare_eq_l :
  forall a b c, vcompare a b = Eq -> vcompare a c = vcompare b c.

(** C2: with [min_version > max_version], [validate] always raises
    [ImproperlyConfigured]: the minimum-version error when the host version
    is below the minimum, the maximum-version error otherwise; the
    configuration is left as it was. *)
Theorem validate_inverted_bounds (cls : PluginConfig Version) mn mx
    (user_config : gmap string obj) (current_version : Version) :
  min_version cls = Some mn -> max_version cls = Some mx -> vcompare mn mx = Gt ->
  validate Version vcompare cls user_config current_version =
  (Some (ImproperlyConfigured
           (if vlt Version vcompare current_version mn
            then min_version_msg Version cls
            else max_version_msg Version cls)), user_config).
Proof.
  intros Hmn Hmx Hgt. unfold validate, check_versions.
  rewrite Hmn, Hmx. unfold vlt, vgt.
  destruct (vcompare current_version mn) eqn:Hc.
  - rewrite (vcompare_eq_l _ _ _ Hc), Hgt. reflexivity.
  - reflexivity.
  - rewrite (vcompare_gt_trans _ _ _ Hc Hgt). reflexivity.
Qed.

End VersionOrder.

Lemma nat_compare_gt_trans (a b c : nat) :
  Nat.compare a b = Gt -> Nat.compare b c = Gt -> Nat.compare a c = Gt.
Proof. rewrite !Nat.compare_gt_iff. lia. Qed.

Lemma nat_compare_eq_l (a b c : nat) :
  Nat.compare a b = Eq -> Nat.compare a c = Nat.compare b c.
Proof. intros H. apply Nat.compare_eq_iff in H. by subst. Qed.

(** A plugin whose bounds are inverted (minimum 40, maximum 35). *)
Definition inverted : PluginConfig nat := {|
  module := "inverted";
  min_version_str := "40";
  max_version_str := "35";
  min_version := Some 40;
  max_version := Some 35;
  default_settings := [];
  required_settings := []
|}.

Lemma validate_inverted_bounds_witness :
  validate nat Nat.compare inverted ∅ 37 =
  (Some (ImproperlyConfigured (min_version_msg nat inverted)), ∅).
Proof.
  exact (validate_inverted_bounds Nat.compare nat_compare_gt_trans nat_compare_eq_l
           inverted 40 35 ∅ 37 eq_refl eq_refl eq_refl).
Defined.

(** The claim C3 read for every missing key: the error names that key. *)
Definition names_every_missing_key (Version : Type) (vcompare : Version -> Version -> comparison)
    (cls : PluginConfig Version) (user_config : gmap string obj) (v : Version) : Prop :=
  forall k, k ∈ required_settings cls -> user_config !! k = None ->
  validate Version vcompare cls user_config v =
  (Some (ImproperlyConfigured (missing_setting_msg Version cls k)), user_config).

Definition two_required : PluginConfig nat := {|
  module := "acme";
  min_version_str := "";
  max_version_str := "";
  min_version := None;
  max_version := None;
  default_settings := [("timeout", OStr "30")];
  required_settings := ["api_key"; "token"]
|}.

(** C3 counterexample: both required keys are missing; the error names
    only the first one, ["api_key"], not ["token"]. *)
Lemma validate_missing_names_first_cex :
  ~ names_every_missing_key nat Nat.compare two_required ∅ 0.
Proof.
  intros H. specialize (H "token" ltac:(vm_compute; set_solver) eq_refl).
  vm_compute in H. discriminate H.
Qed.

(** C3 (amended): when the version check passes, the error names the first
    key of [required_settings] absent from [user_config], and
    [user_config] is not changed (no default is applied). *)
Theorem validate_missing_setting {Version : Type} (vcompare : Version -> Version -> comparison)
    (cls : PluginConfig Version) (user_config : gmap string obj) (v : Version)
    (pre : list string) (k : string) (post : list string) :
  check_versions Version vcompare cls v = None ->
  required_settings cls = pre ++ k :: post ->
  Forall (fun s => is_Some (user_config !! s)) pre ->
  user_config !! k = None ->
  validate Version vcompare cls user_config v =
  (Some (ImproperlyConfigured (missing_setting_msg Version cls k)), user_config).
Proof.
  intros Hv Hreq Hpre Hk. unfold validate. rewrite Hv, Hreq. clear Hreq.
  induction Hpre as [|s pre [x Hs] _ IH]; simpl.
  - by rewrite Hk.
  - by rewrite Hs.
Qed.

Lemma validate_missing_setting_witness :
  validate nat Nat.compare two_required {[ "api_key" := OStr "xyz" ]} 0 =
  (Some (ImproperlyConfigured (missing_setting_msg nat two_required "token")),
   {[ "api_key" := OStr "xyz" ]}).
Proof.
  apply (validate_missing_setting Nat.compare two_required _ 0 ["api_key"] "token" []).
  - reflexivity.
  - reflexivity.
  - constructor; [|constructor]. vm_compute. by eexists.
  - reflexivity.
Defined.

(** C5: after a successful [validate], every key already in [user_config]
    keeps its value; a key absent from it gets the default of that key, if
    [default_settings] has one. *)
Theorem validate_keeps_explicit_settings {Version : Type}
    (vcompare : Version -> Version -> comparison)
    (cls : PluginConfig Version) (user_config user_config' : gmap string obj) (v : Version) :
  validate Version vcompare cls user_config v = (None, user_config') ->
  (forall k x, user_config !! k = Some x -> user_config' !! k = Some x) /\
  (forall k, user_config !! k = None ->
             user_config' !! k = default_for k (default_settings cls)).
Proof.
  unfold validate.
  destruct (check_versions _ _ _ _); [discriminate|].
  destruct (check_required _ _ _ _); [discriminate|].
  intros [= <-]. split.
  - intros k x Hk. by rewrite apply_defaults_lookup, Hk.
  - intros k Hk. by rewrite apply_defaults_lookup, Hk.
Qed.

Definition explicit_timeout : gmap string obj :=
  {[ "api_key" := OStr "xyz"; "timeout" := OStr "5" ]}.

Lemma validate_keeps_explicit_settings_witness :
  validate nat Nat.compare acme explicit_timeout 37 = (None, explicit_timeout) /\
  explicit_timeout !! "timeout" = Some (OStr "5").
Proof.
  assert (H : validate nat Nat.compare acme explicit_timeout 37 = (None, explicit_timeout))
    by reflexivity.
  split; [exact H|].
  apply (proj1 (validate_keeps_explicit_settings Nat.compare acme _ _ 37 H)).
  reflexivity.
Defined.

(** C9: the defaults-application loop is idempotent, and for a dict of
    defaults (distinct keys) the order of its items does not matter. *)
Theorem apply_defaults_idempotent_order_free
    (defaults defaults' : list (string * obj)) (user_config : gmap string obj) :
  NoDup defaults.*1 -> defaults ≡ₚ defaults' ->
  apply_defaults defaults (apply_defaults defaults user_config)
    = apply_defaults defaults user_config /\
  apply_defaults defaults' user_config = apply_defaults defaults user_config.
Proof.
  intros Hnd Hp. split; apply map_eq; intros k.
  - rewrite !apply_defaults_lookup.
    destruct (user_config !! k); [done|].
    by destruct (default_for k defaults).
  - rewrite !apply_defaults_lookup.
    destruct (user_config !! k); [done|].
    symmetry. by apply default_for_perm.
Qed.

Lemma apply_defaults_idempotent_order_free_witness :
  let d := [("timeout", OStr "30"); ("retries", OStr "3")] in
  let d' := [("retries", OStr "3"); ("timeout", OStr "30")] in
  let cfg : gmap string obj := {[ "timeout" := OStr "5" ]} in
  apply_defaults d (apply_defaults d cfg) = apply_defaults d cfg /\
  apply_defaults d' cfg = apply_defaults d cfg.
Proof.
  intros d d' cfg.
  apply apply_defaults_idempotent_order_free.
  - vm_compute. repeat constructor; set_solver.
  - apply Permutation_swap.
Defined.

(** ** Properties of the registrars *)

(** A candidate that passes the checks of [register_template_extensions]. *)
Definition valid_template_extension (c : candidate) : Prop :=
  exists t m, c = CClass t (Some m) /\ issubclass t TPluginTemplateExtension = true.

Definition cand_model (c : candidate) : option string :=
  match c with
  | CClass _ m => m
  | CInstance _ => None
  end.

Lemma te_append_lookup model c r m :
  default [] (template_extensions (te_append model c r) !! m) =
  default [] (template_extensions r !! m) ++ (if decide (m = model) then [c] else []).
Proof.
  unfold te_append, set_template_extensions; simpl.
  case_decide; subst.
  - by rewrite lookup_insert_eq.
  - rewrite lookup_insert_ne by congruence. by rewrite app_nil_r.
Qed.

Lemma register_template_extensions_valid (class_list : list candidate) (r : Registry) :
  Forall valid_template_extension class_list ->
  fst (register_template_extensions class_list r) = None /\
  forall m,
    default [] (template_extensions (snd (register_template_extensions class_list r)) !! m) =
    default [] (template_extensions r !! m)
      ++ filter (fun c => cand_model c = Some m) class_list.
Proof.
  intros Hv. revert r.
  induction Hv as [|c l [t [m0 [-> Ht]]] _ IH]; intros r; simpl.
  - split; [done|]. intros m. by rewrite app_nil_r.
  - rewrite Ht; simpl. destruct (IH (te_append m0 (CClass t (Some m0)) r)) as [H1 H2].
    split; [done|]. intros m. rewrite H2, te_append_lookup, filter_cons; simpl.
    rewrite <- app_assoc. f_equal.
    repeat case_decide; simplify_eq; done.
Qed.

Lemma register_template_extensions_other (class_list : list candidate) (r : Registry) :
  graphql_schemas (snd (register_template_extensions class_list r)) = graphql_schemas r /\
  menus (snd (register_template_extensions class_list r)) = menus r /\
  menu_items (snd (register_template_extensions class_list r)) = menu_items r /\
  preferences (snd (register_template_extensions class_list r)) = preferences r.
Proof.
  revert r. induction class_list as [|c l IH]; intros r; simpl; [done|].
  destruct c as [t [m|]|t]; simpl; [|by destruct (issubclass _ _)|done].
  destruct (issubclass t TPluginTemplateExtension); simpl; [|done].
  specialize (IH (te_append m (CClass t (Some m)) r)).
  exact IH.
Qed.

(** The template extension classes used on concrete inputs. *)
Definition ext_a : candidate := CClass (TSub "acme.DeviceContent" TPluginTemplateExtension) (Some "dcim.device").
Definition ext_b : candidate := CClass (TSub "other.DeviceContent" TPluginTemplateExtension) (Some "dcim.device").
Definition ext_no_model : candidate := CClass (TSub "acme.NoModel" TPluginTemplateExtension) None.

(** The claim C1 as stated: a list holding a class with [model = None]
    raises [TypeError] and leaves the registry as it was. *)
Definition te_call_atomic (class_list : list candidate) (r : Registry) : Prop :=
  (exists msg, fst (register_template_extensions class_list r) = Some (TypeError msg)) /\
  snd (register_template_extensions class_list r) = r.

(** C1 counterexample: [[ext_a; ext_no_model]] raises on the second class,
    but [ext_a] has already been appended to the registry. *)
Lemma register_template_extensions_partial_cex :
  ~ (forall (class_list : list candidate) (r : Registry) t,
       CClass t None ∈ class_list -> te_call_atomic class_list r).
Proof.
  intros H.
  destruct (H [ext_a; ext_no_model] empty_registry
              (TSub "acme.NoModel" TPluginTemplateExtension)
              ltac:(right; left)) as [_ Hr].
  vm_compute in Hr. discriminate Hr.
Qed.

Lemma register_template_extensions_app (pre l : list candidate) (r : Registry) :
  Forall valid_template_extension pre ->
  register_template_extensions (pre ++ l) r =
  register_template_extensions l (snd (register_template_extensions pre r)).
Proof.
  intros Hv. revert r.
  induction Hv as [|c pre [t [m0 [-> Ht]]] _ IH]; intros r; simpl; [done|].
  rewrite Ht; simpl. apply IH.
Qed.

(** C1 (amended): a class whose [model] is [None] makes the call raise
    [TypeError], and that class is not added to the registry; the classes
    before it in the list have already been validated and appended, so the
    registry is the one left by registering those alone (unchanged when the
    failing class comes first); the classes after it are not registered. *)
Theorem register_template_extensions_no_model (pre post : list candidate) (t : pytype)
    (r : Registry) :
  Forall valid_template_extension pre ->
  (exists msg,
     register_template_extensions (pre ++ CClass t None :: post) r =
     (Some (TypeError msg), snd (register_template_extensions pre r))) /\
  (forall m,
     CClass t None ∈ default [] (template_extensions (snd (register_template_extensions pre r)) !! m) ->
     CClass t None ∈ default [] (template_extensions r !! m)).
Proof.
  intros Hv. split.
  - rewrite register_template_extensions_app by done. simpl.
    destruct (issubclass t TPluginTemplateExtension); simpl; eexists; reflexivity.
  - intros m Hin.
    destruct (register_template_extensions_valid pre r Hv) as [_ Hl].
    rewrite Hl in Hin. apply elem_of_app in Hin as [Hin|Hin]; [done|].
    apply list_elem_of_filter in Hin as [Hm _]. discriminate Hm.
Qed.

Lemma register_template_extensions_no_model_witness :
  (exists msg,
     register_template_extensions [ext_a; ext_no_model] empty_registry =
     (Some (TypeError msg), snd (register_template_extensions [ext_a] empty_registry))) /\
  (forall m,
     ext_no_model ∈ default [] (template_extensions
                                  (snd (register_template_extensions [ext_a] empty_registry)) !! m) ->
     ext_no_model ∈ default [] (template_extensions empty_registry !! m)).
Proof.
  apply (register_template_extensions_no_model [ext_a] []
           (TSub "acme.NoModel" TPluginTemplateExtension) empty_registry).
  constructor; [|constructor].
  eexists _, _. split; reflexivity.
Defined.

(** C6: two valid classes for the same model, registered by two calls,
    both end up in that model's list, in registration order, after the
    classes already registered there. *)
Theorem register_template_extensions_same_model (c1 c2 : candidate) (m : string)
    (r : Registry) :
  valid_template_extension c1 -> cand_model c1 = Some m ->
  valid_template_extension c2 -> cand_model c2 = Some m ->
  let (e1, r1) := register_template_extensions [c1] r in
  let (e2, r2) := register_template_extensions [c2] r1 in
  e1 = None /\ e2 = None /\
  template_extensions r2 !! m = Some (default [] (template_extensions r !! m) ++ [c1; c2]).
Proof.
  intros [t1 [m1 [-> H1]]] Hm1 [t2 [m2 [-> H2]]] Hm2.
  simpl in Hm1, Hm2. simplify_eq. simpl. rewrite H1, H2. simpl.
  split; [done|]. split; [done|].
  unfold te_append, set_template_extensions; simpl.
  rewrite !lookup_insert_eq. simpl. by rewrite <- app_assoc.
Qed.

Lemma register_template_extensions_same_model_witness :
  let (e1, r1) := register_template_extensions [ext_a] empty_registry in
  let (e2, r2) := register_template_extensions [ext_b] r1 in
  e1 = None /\ e2 = None /\
  template_extensions r2 !! "dcim.device" =
  Some (default [] (template_extensions empty_registry !! "dcim.device") ++ [ext_a; ext_b]).
Proof.
  apply (register_template_extensions_same_model ext_a ext_b "dcim.device" empty_registry).
  - eexists _, _. split; reflexivity.
  - reflexivity.
  - eexists _, _. split; reflexivity.
  - reflexivity.
Defined.

(** A menu item that passes the checks of [register_menu_items]. *)
Definition valid_menu_item (o : obj) : Prop :=
  isinstance o TPluginMenuItem = true /\
  Forall (fun b => isinstance b TPluginMenuButton = true) (buttons_of o).

Lemma check_buttons_spec (buttons : list obj) :
  match check_buttons buttons with
  | None => Forall (fun b => isinstance b TPluginMenuButton = true) buttons
  | Some e => (exists msg, e = TypeError msg) /\
              exists b, b ∈ buttons /\ isinstance b TPluginMenuButton = false
  end.
Proof.
  induction buttons as [|b bs IH]; simpl; [done|].
  destruct (isinstance b TPluginMenuButton) eqn:Hb; simpl.
  - destruct (check_buttons bs) as [e|].
    + destruct IH as [He [b' [Hin Hb']]]. split; [done|].
      exists b'. split; [by right|done].
    + by constructor.
  - split; [by eexists|]. exists b. split; [left|done].
Qed.

Lemma check_menu_items_spec (class_list : list obj) :
  match check_menu_items class_list with
  | None => Forall valid_menu_item class_list
  | Some e => exists msg, e = TypeError msg
  end.
Proof.
  induction class_list as [|o os IH]; simpl; [done|].
  destruct (isinstance o TPluginMenuItem) eqn:Ho; simpl; [|by eexists].
  pose proof (check_buttons_spec (buttons_of o)) as Hb.
  destruct (check_buttons (buttons_of o)) as [e|]; [by destruct Hb|].
  destruct (check_menu_items os); [done|].
  constructor; [by split|done].
Qed.

Lemma check_menu_items_valid (class_list : list obj) :
  Forall valid_menu_item class_list -> check_menu_items class_list = None.
Proof.
  induction 1 as [|o os [Ho Hbs] _ IH]; simpl; [done|].
  rewrite Ho; simpl.
  assert (Hc : check_buttons (buttons_of o) = None).
  { clear -Hbs. induction Hbs as [|b bs Hb _ IHb]; simpl; [done|].
    by rewrite Hb. }
  by rewrite Hc.
Qed.

(** C4: if an element of the list is not a [PluginMenuItem], or one of its
    buttons is not a [PluginMenuButton], the call raises [TypeError] and the
    registry (its [menu_items] included) is exactly as before. *)
Theorem register_menu_items_invalid_atomic (section_name : string) (class_list : list obj)
    (r : Registry) :
  (exists o, o ∈ class_list /\
     (isinstance o TPluginMenuItem = false \/
      exists b, b ∈ buttons_of o /\ isinstance b TPluginMenuButton = false)) ->
  exists msg, register_menu_items section_name class_list r = (Some (TypeError msg), r).
Proof.
  intros [o [Hin Hbad]]. unfold register_menu_items.
  pose proof (check_menu_items_spec class_list) as Hc.
  destruct (check_menu_items class_list) as [e|].
  - destruct Hc as [msg ->]. by exists msg.
  - exfalso. rewrite Forall_forall in Hc. destruct (Hc o Hin) as [Ho Hbs].
    destruct Hbad as [Hbad|[b [Hb Hbad]]]; [congruence|].
    rewrite Forall_forall in Hbs. specialize (Hbs b Hb). congruence.
Qed.

(** Menu items and buttons used on concrete inputs. *)
Definition button_add : obj :=
  OMenuButton TPluginMenuButton "plugins:acme:add" "Add" "mdi mdi-plus" "green" [].
Definition item_list : obj :=
  OMenuItem TPluginMenuItem "plugins:acme:list" "Things" [] [button_add].
Definition item_bad_button : obj :=
  OMenuItem TPluginMenuItem "plugins:acme:other" "Others" [] [OStr "not a button"].

Definition registry_with_items : Registry :=
  set_menu_items empty_registry {[ "Other plugin" := [item_list] ]}.

Lemma register_menu_items_invalid_atomic_witness :
  exists msg,
    register_menu_items "Acme" [item_list; item_bad_button] registry_with_items =
    (Some (TypeError msg), registry_with_items).
Proof.
  apply register_menu_items_invalid_atomic.
  exists item_bad_button. split; [right; left|].
  right. exists (OStr "not a button"). split; [left|reflexivity].
Defined.

(** C7: registering two valid lists under the same section key leaves the
    second one under that key; every other key keeps the entry it had
    before the second call. *)
Theorem register_menu_items_last_wins (section_name : string) (l1 l2 : list obj)
    (r : Registry) :
  Forall valid_menu_item l1 -> Forall valid_menu_item l2 ->
  let (e1, r1) := register_menu_items section_name l1 r in
  let (e2, r2) := register_menu_items section_name l2 r1 in
  e1 = None /\ e2 = None /\
  menu_items r2 !! section_name = Some l2 /\
  (forall k, k <> section_name -> menu_items r2 !! k = menu_items r1 !! k).
Proof.
  intros H1 H2. unfold register_menu_items.
  rewrite (check_menu_items_valid l1 H1), (check_menu_items_valid l2 H2).
  unfold set_menu_items; simpl.
  split; [done|]. split; [done|]. split.
  - by rewrite lookup_insert_eq.
  - intros k Hk. by rewrite lookup_insert_ne by congruence.
Qed.

Lemma register_menu_items_last_wins_witness :
  let (e1, r1) := register_menu_items "Acme" [item_list] registry_with_items in
  let (e2, r2) := register_menu_items "Acme" [] r1 in
  e1 = None /\ e2 = None /\
  menu_items r2 !! "Acme" = Some [] /\
  (forall k, k <> "Acme" -> menu_items r2 !! k = menu_items r1 !! k).
Proof.
  apply register_menu_items_last_wins.
  - constructor; [|constructor]. split; [reflexivity|].
    constructor; [reflexivity|constructor].
  - constructor.
Defined.

(** ** Properties of the [PluginMenuItem] and [PluginMenuButton] constructors *)

(** [type(o) in (list, tuple)] on a value that is not [None]: the
    constructors take their non-[None] branch on it. *)
Lemma not_list_or_tuple_false (o : obj) :
  not_list_or_tuple o = false <-> type_of o = TList \/ type_of o = TTuple.
Proof.
  unfold not_list_or_tuple. rewrite negb_false_iff, orb_true_iff, !bool_decide_eq_true.
  done.
Qed.

(** The claim C8 as stated, for a palette and a default color. *)
Definition button_color_contract (palette : list string) (default_color : string) : Prop :=
  forall link title icon_class color permissions,
    (color <> ONone -> color_in color palette = false ->
     PluginMenuButton_init palette default_color link title icon_class color permissions
     = inl (ValueError color_msg)) /\
    (color = ONone \/ color_in color palette = true ->
     exists b, PluginMenuButton_init palette default_color link title icon_class color permissions
               = inr b).

(** A palette used on concrete inputs (the real one is
    [ButtonColorChoices.values()]). *)
Definition sample_palette : list string := ["outline-dark"; "blue"; "green"; "red"].

(** C8 counterexample: with [permissions] passed as a string, the
    permissions check runs first and raises [TypeError], whatever the
    color. *)
Lemma button_color_contract_cex : ~ button_color_contract sample_palette "outline-dark".
Proof.
  intros H.
  destruct (H "plugins:acme:add" "Add" "mdi mdi-plus" (OStr "not-a-color")
              (OStr "dcim.add_device")) as [Hbad _].
  specialize (Hbad ltac:(discriminate) ltac:(reflexivity)).
  vm_compute in Hbad. discriminate Hbad.
Qed.

(** C8 (amended): when [permissions] is omitted or an exact [list] or
    [tuple], a color that is not [None] and not in the palette makes the
    constructor raise [ValueError], and an omitted color or a palette color
    gives a button; [permissions] is checked first, so a non-[None]
    [permissions] of any other type makes the constructor raise
    [TypeError] whatever the color. *)
Theorem PluginMenuButton_color (palette : list string) (default_color : string)
    (link title icon_class : string) (color permissions : obj) :
  ((permissions = ONone \/ type_of permissions = TList \/ type_of permissions = TTuple) ->
   (color <> ONone -> color_in color palette = false ->
    PluginMenuButton_init palette default_color link title icon_class color permissions
    = inl (ValueError color_msg)) /\
   (color = ONone \/ color_in color palette = true ->
    exists b, PluginMenuButton_init palette default_color link title icon_class color permissions
              = inr b)) /\
  (permissions <> ONone -> type_of permissions <> TList -> type_of permissions <> TTuple ->
   PluginMenuButton_init palette default_color link title icon_class color permissions
   = inl (TypeError permissions_msg)).
Proof.
  split.
  - intros Hp.
    assert (Hperm : exists perms,
              match permissions with
              | ONone => inr []
              | p => if not_list_or_tuple p then inl (TypeError permissions_msg)
                     else inr (seq_elems p)
              end = (inr perms : exc + list obj)).
    { destruct Hp as [->|Ht]; [by exists []|].
      apply not_list_or_tuple_false in Ht. exists (seq_elems permissions).
      destruct permissions; [discriminate Ht|..]; cbn beta iota; rewrite Ht; reflexivity. }
    destruct Hperm as [perms Hperm].
    unfold PluginMenuButton_init. rewrite Hperm. simpl. split.
    + intros Hc Hin. destruct color; try congruence; rewrite Hin; reflexivity.
    + intros [->|Hin]; [by eexists|].
      destruct color; try discriminate Hin; rewrite Hin; by eexists.
  - intros Hn Hl Ht.
    assert (Hnl : not_list_or_tuple permissions = true).
    { destruct (not_list_or_tuple permissions) eqn:E; [done|].
      apply not_list_or_tuple_false in E. tauto. }
    unfold PluginMenuButton_init.
    destruct permissions; [congruence|..]; cbn beta iota; rewrite Hnl; reflexivity.
Qed.

Lemma PluginMenuButton_color_witness :
  (PluginMenuButton_init sample_palette "outline-dark" "plugins:acme:add" "Add" "mdi mdi-plus"
     (OStr "not-a-color") (OSeq TList [OStr "acme.add_thing"])
   = inl (ValueError color_msg)) /\
  (exists b, PluginMenuButton_init sample_palette "outline-dark" "plugins:acme:add" "Add"
               "mdi mdi-plus" (OStr "green") (OSeq TList [OStr "acme.add_thing"])
             = inr b) /\
  (PluginMenuButton_init sample_palette "outline-dark" "plugins:acme:add" "Add" "mdi mdi-plus"
     (OStr "green") (OStr "acme.add_thing")
   = inl (TypeError permissions_msg)).
Proof.
  split; [|split].
  - apply (proj1 (PluginMenuButton_color sample_palette "outline-dark" "plugins:acme:add" "Add"
             "mdi mdi-plus" (OStr "not-a-color") (OSeq TList [OStr "acme.add_thing"]))).
    + right; left; reflexivity.
    + discriminate.
    + reflexivity.
  - apply (proj1 (PluginMenuButton_color sample_palette "outline-dark" "plugins:acme:add" "Add"
             "mdi mdi-plus" (OStr "green") (OSeq TList [OStr "acme.add_thing"]))).
    + right; left; reflexivity.
    + right; reflexivity.
  - apply (proj2 (PluginMenuButton_color sample_palette "outline-dark" "plugins:acme:add" "Add"
             "mdi mdi-plus" (OStr "green") (OStr "acme.add_thing"))); discriminate.
Defined.

Lemma seq_arg_not_none (x : obj) (msg : string) :
  x <> ONone ->
  match x with
  | ONone => inr []
  | p => if not_list_or_tuple p then inl (TypeError msg) else inr (seq_elems p)
  end = (if not_list_or_tuple x then inl (TypeError msg) else inr (seq_elems x)
         : exc + list obj).
Proof. intros Hx. destruct x; congruence. Qed.

(** C10: a [permissions] or [buttons] argument other than [None] is
    accepted exactly when its type is [list] or [tuple] itself; an instance
    of a proper subclass of [list] or [tuple] makes the constructor raise
    [TypeError]. *)
Theorem menu_sequence_args_exact_type (x other : obj)
    (link link_text title icon_class : string) (palette : list string)
    (default_color : string) :
  x <> ONone ->
  ((exists o, PluginMenuItem_init link link_text x ONone = inr o) <->
     type_of x = TList \/ type_of x = TTuple) /\
  ((exists o, PluginMenuItem_init link link_text ONone x = inr o) <->
     type_of x = TList \/ type_of x = TTuple) /\
  ((exists o, PluginMenuButton_init palette default_color link title icon_class ONone x
              = inr o) <->
     type_of x = TList \/ type_of x = TTuple) /\
  ((isinstance x TList = true \/ isinstance x TTuple = true) ->
   type_of x <> TList -> type_of x <> TTuple ->
   PluginMenuItem_init link link_text x other = inl (TypeError permissions_msg) /\
   (exists msg, PluginMenuItem_init link link_text other x = inl (TypeError msg)) /\
   PluginMenuButton_init palette default_color link title icon_class other x
   = inl (TypeError permissions_msg)).
Proof.
  intros Hx.
  unfold PluginMenuItem_init, PluginMenuButton_init.
  rewrite !(seq_arg_not_none x) by done.
  destruct (not_list_or_tuple x) eqn:E.
  - assert (Hn : ~ (type_of x = TList \/ type_of x = TTuple)).
    { rewrite <- not_list_or_tuple_false. congruence. }
    split; [split; [intros [o Ho]; discriminate Ho|tauto]|].
    split; [split; [intros [o Ho]; discriminate Ho|tauto]|].
    split; [split; [intros [o Ho]; discriminate Ho|tauto]|].
    intros _ _ _. simpl. split; [done|]. split; [|done].
    destruct other; [eexists; reflexivity|..];
      cbn beta iota;
      match goal with |- context [not_list_or_tuple ?o] => destruct (not_list_or_tuple o) end;
      eexists; reflexivity.
  - apply not_list_or_tuple_false in E.
    split; [split; [done|by eexists]|].
    split; [split; [done|]|].
    { intros _. simpl. by eexists. }
    split; [split; [done|by eexists]|].
    intros _ H1 H2. exfalso. tauto.
Qed.

(** A subclass of [list] holding permissions. *)
Definition perm_list_subclass : obj :=
  OSeq (TSub "acme.PermissionList" TList) [OStr "dcim.view_device"].

Lemma menu_sequence_args_exact_type_witness :
  PluginMenuItem_init "plugins:acme:list" "Things" perm_list_subclass ONone
    = inl (TypeError permissions_msg) /\
  (exists msg, PluginMenuItem_init "plugins:acme:list" "Things" ONone perm_list_subclass
               = inl (TypeError msg)) /\
  PluginMenuButton_init sample_palette "outline-dark" "plugins:acme:list" "Add" "mdi mdi-plus"
    ONone perm_list_subclass = inl (TypeError permissions_msg).
Proof.
  destruct (menu_sequence_args_exact_type perm_list_subclass ONone "plugins:acme:list" "Things"
              "Add" "mdi mdi-plus" sample_palette "outline-dark" ltac:(discriminate))
    as (_ & _ & _ & H).
  apply H.
  - left. reflexivity.
  - discriminate.
  - discriminate.
Defined.

(** ** Further properties of [validate] *)

Lemma check_versions_none_iff {Version : Type} (vcompare : Version -> Version -> comparison)
    (cls : PluginConfig Version) (v : Version) :
  check_versions Version vcompare cls v = None <->
  (forall mn, min_version cls = Some mn -> vcompare v mn <> Lt) /\
  (forall mx, max_version cls = Some mx -> vcompare v mx <> Gt).
Proof.
  unfold check_versions, vlt, vgt.
  destruct (min_version cls) as [mn|]; destruct (max_version cls) as [mx|];
    try destruct (vcompare v mn) eqn:E1; try destruct (vcompare v mx) eqn:E2;
    split; intros H; try done;
    try (match type of H with _ /\ _ => destruct H as [H1 H2] end);
    try (exfalso; by eapply H1);
    try (exfalso; by eapply H2);
    split; intros ? [= <-]; congruence.
Qed.

Lemma check_required_none_iff {Version : Type} (cls : PluginConfig Version)
    (settings : list string) (user_config : gmap string obj) :
  check_required Version cls settings user_config = None <->
  Forall (fun s => is_Some (user_config !! s)) settings.
Proof.
  induction settings as [|s rest IH]; simpl.
  - split; [constructor|done].
  - rewrite Forall_cons. destruct (user_config !! s) eqn:E.
    + rewrite IH. split; [by split|by intros [_ ?]].
    + split; [done|]. intros [[x Hx] _]. congruence.
Qed.

(** [validate] succeeds exactly when the host version is within the bounds
    that are set (not below [min_version], not above [max_version]) and
    every key of [required_settings] is present in [user_config]. *)
Theorem validate_success_iff {Version : Type} (vcompare : Version -> Version -> comparison)
    (cls : PluginConfig Version) (user_config : gmap string obj) (v : Version) :
  fst (validate Version vcompare cls user_config v) = None <->
  (forall mn, min_version cls = Some mn -> vcompare v mn <> Lt) /\
  (forall mx, max_version cls = Some mx -> vcompare v mx <> Gt) /\
  Forall (fun s => is_Some (user_config !! s)) (required_settings cls).
Proof.
  pose proof (check_versions_none_iff vcompare cls v) as Hv.
  pose proof (check_required_none_iff cls (required_settings cls) user_config) as Hr.
  unfold validate.
  destruct (check_versions _ _ _ _); destruct (check_required _ _ _ _); simpl;
    split; intros H; try done.
  - exfalso. destruct H as [H1 [H2 _]]. discriminate (proj2 Hv (conj H1 H2)).
  - exfalso. destruct H as [H1 [H2 _]]. discriminate (proj2 Hv (conj H1 H2)).
  - exfalso. destruct H as [_ [_ H3]]. discriminate (proj2 Hr H3).
  - destruct (proj1 Hv eq_refl). split; [done|]. split; [done|]. by apply Hr.
Qed.

Lemma default_for_is_Some (defaults : list (string * obj)) k :
  is_Some (default_for k defaults) <-> k ∈ defaults.*1.
Proof.
  induction defaults as [|[k' v] rest IH]; simpl.
  - split; [intros [? ?]; done|intros H; inversion H].
  - rewrite elem_of_cons. case_decide; subst.
    + split; [by left|by eexists].
    + rewrite IH. split; [by right|]. by intros [?|?].
Qed.

Lemma validate_success_keys_aux {Version : Type} (vcompare : Version -> Version -> comparison)
    (cls : PluginConfig Version) (user_config user_config' : gmap string obj) (v : Version) :
  validate Version vcompare cls user_config v = (None, user_config') ->
  (forall k, is_Some (user_config' !! k) <->
             is_Some (user_config !! k) \/ k ∈ (default_settings cls).*1) /\
  Forall (fun s => is_Some (user_config' !! s)) (required_settings cls).
Proof.
  unfold validate.
  destruct (check_versions _ _ _ _); [discriminate|].
  destruct (check_required _ _ _ _) eqn:Hr; [discriminate|].
  intros [= <-]. split.
  - intros k. rewrite apply_defaults_lookup, <- default_for_is_Some.
    destruct (user_config !! k).
    + split; [intros _; left; by eexists|intros _; by eexists].
    + split; [intros H; by right|intros [[? ?]|?]; [discriminate|done]].
  - apply check_required_none_iff in Hr. eapply Forall_impl; [exact Hr|].
    intros s [x Hx]. rewrite apply_defaults_lookup, Hx. by eexists.
Qed.


(** After a successful [validate], the keys of [user_config] are its former
    keys plus the keys of [default_settings], so every required setting and
    every default key is present. *)
Theorem validate_success_keys {Version : Type} (vcompare : Version -> Version -> comparison)
    (cls : PluginConfig Version) (user_config user_config' : gmap string obj) (v : Version) :
  validate Version vcompare cls user_config v = (None, user_config') ->
  (forall k, is_Some (user_config' !! k) <->
             is_Some (user_config !! k) \/ k ∈ (default_settings cls).*1) /\
  Forall (fun s => is_Some (user_config' !! s)) (required_settings cls).
Proof. apply validate_success_keys_aux. Qed.

Lemma validate_success_keys_witness :
  (forall k, is_Some ((snd (validate nat Nat.compare acme {[ "api_key" := OStr "xyz" ]} 37)) !! k) <->
             is_Some (({[ "api_key" := OStr "xyz" ]} : gmap string obj) !! k) \/
             k ∈ (default_settings acme).*1) /\
  Forall (fun s => is_Some ((snd (validate nat Nat.compare acme {[ "api_key" := OStr "xyz" ]} 37)) !! s))
    (required_settings acme).
Proof.
  apply (validate_success_keys Nat.compare acme {[ "api_key" := OStr "xyz" ]} _ 37).
  reflexivity.
Defined.

(** Validating again the configuration a successful [validate] produced
    succeeds and changes nothing more. *)
Theorem validate_rerun {Version : Type} (vcompare : Version -> Version -> comparison)
    (cls : PluginConfig Version) (user_config user_config' : gmap string obj) (v : Version) :
  validate Version vcompare cls user_config v = (None, user_config') ->
  validate Version vcompare cls user_config' v = (None, user_config').
Proof.
  intros H. pose proof (validate_success_keys_aux vcompare cls _ _ v H) as [_ Hreq].
  revert H. unfold validate.
  destruct (check_versions _ _ _ _); [discriminate|].
  destruct (check_required _ _ _ user_config); [discriminate|].
  intros [= <-].
  apply (proj2 (check_required_none_iff cls _ _)) in Hreq. rewrite Hreq. f_equal.
  apply map_eq. intros k. rewrite !apply_defaults_lookup.
  destruct (user_config !! k); [done|]. by destruct (default_for _ _).
Qed.

Lemma validate_rerun_witness :
  validate nat Nat.compare acme (snd (validate nat Nat.compare acme {[ "api_key" := OStr "xyz" ]} 37)) 37
  = (None, snd (validate nat Nat.compare acme {[ "api_key" := OStr "xyz" ]} 37)).
Proof. apply (validate_rerun Nat.compare acme {[ "api_key" := OStr "xyz" ]} _ 37). reflexivity. Defined.

(** ** [rsplit('.', 1)[-1]] *)

Example rsplit_dot_last_examples :
  rsplit_dot_last "netbox_acme.plugin" = "plugin" /\
  rsplit_dot_last "acme" = "acme" /\ rsplit_dot_last "a.b." = "".
Proof. repeat split; reflexivity. Qed.

(** The plugin name [ready] derives from [self.name] is its last dotted
    component: it contains no dot, and the name is that component preceded
    by nothing or by a prefix ending in a dot. *)
Theorem rsplit_dot_last_spec (s : string) :
  has_dot (rsplit_dot_last s) = false /\
  exists p, s = (p ++ rsplit_dot_last s)%string /\
            (p = EmptyString \/ exists q, p = (q ++ ".")%string).
Proof.
  induction s as [|c rest [IHd [p [IHs IHp]]]]; simpl.
  - split; [done|]. exists EmptyString. split; [done|by left].
  - destruct (has_dot rest) eqn:Hd.
    + split; [done|]. exists (String c p). split; [rewrite IHs at 1; reflexivity|].
      destruct IHp as [->|[q ->]].
      * assert (E : rest = rsplit_dot_last rest) by exact IHs.
        rewrite <- E in IHd. congruence.
      * right. by exists (String c q).
    + case_bool_decide; subst.
      * split; [done|]. exists "."%string. split; [done|right]. by exists EmptyString.
      * split.
        -- simpl. rewrite Hd, orb_false_r. by apply bool_decide_eq_false.
        -- exists EmptyString. split; [done|by left].
Qed.

(** ** Further properties of the registrars and constructors *)

Lemma register_template_extensions_ok_valid (class_list : list candidate) (r : Registry) :
  fst (register_template_extensions class_list r) = None ->
  Forall valid_template_extension class_list.
Proof.
  revert r. induction class_list as [|c l IH]; intros r; simpl; [by constructor|].
  destruct c as [t [m|]|t]; simpl; [|by destruct (issubclass _ _)|done].
  destruct (issubclass t TPluginTemplateExtension) eqn:Ht; simpl; [|done].
  intros H. constructor; [|by eapply IH].
  exists t, m. by split.
Qed.

(** [register_template_extensions] succeeds exactly when every candidate is
    a subclass of [PluginTemplateExtension] with a [model]; then each
    model's list gains, in list order, the candidates declaring that model. *)
Theorem register_template_extensions_success_iff (class_list : list candidate) (r : Registry) :
  (fst (register_template_extensions class_list r) = None <->
   Forall valid_template_extension class_list) /\
  (Forall valid_template_extension class_list ->
   forall m,
     default [] (template_extensions (snd (register_template_extensions class_list r)) !! m) =
     default [] (template_extensions r !! m)
       ++ filter (fun c => cand_model c = Some m) class_list).
Proof.
  split; [split|].
  - apply register_template_extensions_ok_valid.
  - intros Hv. by apply register_template_extensions_valid.
  - intros Hv. by apply register_template_extensions_valid.
Qed.

Lemma register_template_extensions_success_iff_witness :
  default [] (template_extensions (snd (register_template_extensions [ext_a; ext_b] empty_registry)) !! "dcim.device") =
  default [] (template_extensions empty_registry !! "dcim.device")
    ++ filter (fun c => cand_model c = Some "dcim.device") [ext_a; ext_b].
Proof.
  apply (proj2 (register_template_extensions_success_iff [ext_a; ext_b] empty_registry)).
  constructor; [|constructor; [|constructor]]; eexists _, _; split; reflexivity.
Defined.

(** [register_menu_items] succeeds exactly when every element is a
    [PluginMenuItem] instance whose buttons are all [PluginMenuButton]
    instances. *)
Theorem register_menu_items_success_iff (section_name : string) (class_list : list obj)
    (r : Registry) :
  fst (register_menu_items section_name class_list r) = None <->
  Forall valid_menu_item class_list.
Proof.
  unfold register_menu_items.
  pose proof (check_menu_items_spec class_list) as Hc.
  split.
  - destruct (check_menu_items class_list); [discriminate|done].
  - intros Hv. by rewrite check_menu_items_valid.
Qed.

(** The handling of a [permissions] or [buttons] argument in the
    constructors: [None] gives [[]], an exact [list] or [tuple] its items. *)
Definition seq_arg (msg : string) (a : obj) : exc + list obj :=
  match a with
  | ONone => inr []
  | p => if not_list_or_tuple p then inl (TypeError msg) else inr (seq_elems p)
  end.

Lemma PluginMenuItem_init_seq_arg link link_text permissions buttons :
  PluginMenuItem_init link link_text permissions buttons =
  seq_arg permissions_msg permissions ≫= fun perms =>
  seq_arg buttons_msg buttons ≫= fun btns =>
  inr (OMenuItem TPluginMenuItem link link_text perms btns).
Proof. reflexivity. Qed.

Lemma seq_arg_inr msg a xs : seq_arg msg a = inr xs -> xs = seq_elems a.
Proof.
  destruct a; simpl; try (by intros [= <-]);
    destruct (not_list_or_tuple _); congruence.
Qed.

(** Menu items built by the [PluginMenuItem] constructor, whose buttons were
    built by the [PluginMenuButton] constructor, are always accepted by
    [register_menu_items]. *)
Theorem constructed_menu_items_register (section_name : string) (items : list obj)
    (r : Registry) :
  Forall (fun o => exists link link_text permissions buttons,
            PluginMenuItem_init link link_text permissions buttons = inr o /\
            Forall (fun b => exists palette default_color blink title icon_class color bperms,
                      PluginMenuButton_init palette default_color blink title icon_class color bperms
                      = inr b) (seq_elems buttons)) items ->
  register_menu_items section_name items r =
  (None, set_menu_items r (<[section_name := items]> (menu_items r))).
Proof.
  intros Hitems. unfold register_menu_items.
  rewrite check_menu_items_valid; [done|].
  eapply Forall_impl; [exact Hitems|].
  intros o (link & link_text & permissions & buttons & Ho & Hbs).
  rewrite PluginMenuItem_init_seq_arg in Ho.
  destruct (seq_arg permissions_msg permissions) as [e|perms]; [discriminate Ho|].
  simpl in Ho.
  destruct (seq_arg buttons_msg buttons) as [e|btns] eqn:Hb; [discriminate Ho|].
  simpl in Ho. injection Ho as <-. apply seq_arg_inr in Hb. subst btns.
  split; [reflexivity|]. simpl.
  eapply Forall_impl; [exact Hbs|].
  intros b (palette & dc & bl & ti & ic & col & bp & Hbt).
  unfold PluginMenuButton_init in Hbt.
  destruct (match bp with
            | ONone => inr []
            | p => if not_list_or_tuple p then inl (TypeError permissions_msg)
                   else inr (seq_elems p) end) as [e|perms']; [discriminate Hbt|].
  simpl in Hbt.
  destruct (match col with
            | ONone => inr dc
            | c => if negb (color_in c palette) then inl (ValueError color_msg)
                   else inr (color_str c) end) as [e|c']; [discriminate Hbt|].
  simpl in Hbt. injection Hbt as <-. reflexivity.
Qed.

Lemma constructed_menu_items_register_witness :
  register_menu_items "Acme" [item_list] empty_registry =
  (None, set_menu_items empty_registry (<[ "Acme" := [item_list] ]> (menu_items empty_registry))).
Proof.
  apply constructed_menu_items_register.
  constructor; [|constructor].
  exists "plugins:acme:list", "Things", ONone, (OSeq TList [button_add]).
  split; [reflexivity|].
  constructor; [|constructor].
  exists sample_palette, "outline-dark", "plugins:acme:add", "Add", "mdi mdi-plus",
    (OStr "green"), ONone.
  reflexivity.
Defined.

(** The [PluginMenuItem] constructor does not look inside [buttons]: an item
    whose buttons include a non-[PluginMenuButton] is built without error,
    and only [register_menu_items] rejects it, leaving the registry as it
    was. *)
Theorem menu_item_buttons_checked_at_registration (link link_text section_name : string)
    (t : pytype) (buttons : list obj) (b : obj) (r : Registry) :
  t = TList \/ t = TTuple ->
  b ∈ buttons -> isinstance b TPluginMenuButton = false ->
  exists o, PluginMenuItem_init link link_text ONone (OSeq t buttons) = inr o /\
            exists msg, register_menu_items section_name [o] r = (Some (TypeError msg), r).
Proof.
  intros Ht Hb Hnb.
  assert (Hnl : not_list_or_tuple (OSeq t buttons) = false)
    by (apply not_list_or_tuple_false; simpl; tauto).
  exists (OMenuItem TPluginMenuItem link link_text [] buttons).
  split.
  - unfold PluginMenuItem_init. simpl. by rewrite Hnl.
  - unfold register_menu_items.
    pose proof (check_menu_items_spec [OMenuItem TPluginMenuItem link link_text [] buttons]) as Hc.
    destruct (check_menu_items _) as [e|].
    + destruct Hc as [msg ->]. by exists msg.
    + exfalso. apply Forall_cons in Hc as [[_ Hbs] _]. simpl in Hbs.
      rewrite Forall_forall in Hbs. specialize (Hbs b Hb). congruence.
Qed.

Lemma menu_item_buttons_checked_at_registration_witness :
  exists o, PluginMenuItem_init "plugins:acme:other" "Others" ONone
              (OSeq TList [OStr "not a button"]) = inr o /\
            exists msg, register_menu_items "Acme" [o] registry_with_items
                        = (Some (TypeError msg), registry_with_items).
Proof.
  apply menu_item_buttons_checked_at_registration with (b := OStr "not a button").
  - by left.
  - by left.
  - reflexivity.
Defined.

(** ** Properties of [ready] *)

Lemma and_then_frame (P : Registry -> Prop) (s : option exc * Registry)
    (k : Registry -> option exc * Registry) :
  P (snd s) -> (forall r, P r -> P (snd (k r))) -> P (snd (and_then s k)).
Proof. destruct s as [[e|] r]; simpl; auto. Qed.

Lemma and_then_none (s : option exc * Registry) (k : Registry -> option exc * Registry) r' :
  and_then s k = (None, r') -> exists r1, s = (None, r1) /\ k r1 = (None, r').
Proof. destruct s as [[e|] r]; simpl; [discriminate|eauto]. Qed.

Lemma register_menu_frame (menu : obj) (r : Registry) :
  menu_items (snd (register_menu menu r)) = menu_items r /\
  graphql_schemas (snd (register_menu menu r)) = graphql_schemas r /\
  preferences (snd (register_menu menu r)) = preferences r /\
  template_extensions (snd (register_menu menu r)) = template_extensions r.
Proof. unfold register_menu. by destruct (isinstance menu TPluginMenu). Qed.

(** A plugin that provides none of the optional objects (every
    [import_object] gave [None], except possibly a falsy menu, and the menu
    item list is absent or empty) leaves the registry untouched, and
    [ready] succeeds. *)
Theorem ready_nothing_found (register_search : obj -> option exc) (py_bool : obj -> bool) (p : PluginModule)
    (r : Registry) :
  search_indexes_obj p = None ->
  template_extensions_obj p = None ->
  py_bool (menu_obj p) = false ->
  (menu_items_obj p = None \/ menu_items_obj p = Some []) ->
  graphql_schema_obj p = ONone ->
  user_preferences_obj p = ONone ->
  ready register_search py_bool p r = (None, r).
Proof.
  intros Hs Ht Hm Hmi Hg Hu. unfold ready.
  rewrite Hs, Ht, Hm, Hg, Hu. simpl.
  by destruct Hmi as [-> | ->].
Qed.

Definition quiet_plugin : PluginModule := {|
  name := "netbox_quiet";
  verbose_name := "Quiet";
  search_indexes_obj := None;
  template_extensions_obj := None;
  menu_obj := ONone;
  menu_items_obj := Some [];
  graphql_schema_obj := ONone;
  user_preferences_obj := ONone
|}.

Lemma ready_nothing_found_witness :
  ready (fun _ => None) py_truthy quiet_plugin registry_with_items = (None, registry_with_items).
Proof.
  apply ready_nothing_found; try reflexivity. by right.
Defined.

(** When registering the template extensions fails, [ready] stops there:
    it raises that error, and the menus, menu items, GraphQL schemas and
    user preferences of the registry are those it had before. *)
Theorem ready_stops_at_template_error (register_search : obj -> option exc) (py_bool : obj -> bool)
    (p : PluginModule) (r : Registry) (class_list : list candidate) (e : exc) :
  register_search_all register_search (default [] (search_indexes_obj p)) = None ->
  template_extensions_obj p = Some class_list ->
  fst (register_template_extensions class_list r) = Some e ->
  fst (ready register_search py_bool p r) = Some e /\
  menus (snd (ready register_search py_bool p r)) = menus r /\
  menu_items (snd (ready register_search py_bool p r)) = menu_items r /\
  graphql_schemas (snd (ready register_search py_bool p r)) = graphql_schemas r /\
  preferences (snd (ready register_search py_bool p r)) = preferences r.
Proof.
  intros Hs Ht He. unfold ready. rewrite Hs, Ht. simpl.
  pose proof (register_template_extensions_other class_list r) as (H1 & H2 & H3 & H4).
  destruct (register_template_extensions class_list r) as [e' r1]. simpl in He. subst e'.
  simpl. simpl in H1, H2, H3, H4. auto.
Qed.

Definition faulty_plugin : PluginModule := {|
  name := "netbox_acme";
  verbose_name := "Acme";
  search_indexes_obj := None;
  template_extensions_obj := Some [ext_a; ext_no_model];
  menu_obj := OOther TPluginMenu;
  menu_items_obj := Some [item_list];
  graphql_schema_obj := OOther TObject;
  user_preferences_obj := OOther TObject
|}.

Lemma ready_stops_at_template_error_witness :
  fst (ready (fun _ => None) py_truthy faulty_plugin empty_registry)
    = Some (TypeError (no_model_msg ext_no_model)) /\
  menus (snd (ready (fun _ => None) py_truthy faulty_plugin empty_registry)) = menus empty_registry /\
  menu_items (snd (ready (fun _ => None) py_truthy faulty_plugin empty_registry)) = menu_items empty_registry /\
  graphql_schemas (snd (ready (fun _ => None) py_truthy faulty_plugin empty_registry))
    = graphql_schemas empty_registry /\
  preferences (snd (ready (fun _ => None) py_truthy faulty_plugin empty_registry))
    = preferences empty_registry.
Proof.
  apply (ready_stops_at_template_error _ _ faulty_plugin empty_registry [ext_a; ext_no_model]);
    reflexivity.
Defined.

(** An empty (or absent) [menu_items] list is skipped by [ready]: the
    [menu_items] mapping keeps what it had, including an earlier entry for
    the plugin's [verbose_name], whatever else [ready] does. *)
Theorem ready_empty_menu_items_keeps (register_search : obj -> option exc) (py_bool : obj -> bool)
    (p : PluginModule) (r : Registry) :
  (menu_items_obj p = None \/ menu_items_obj p = Some []) ->
  menu_items (snd (ready register_search py_bool p r)) = menu_items r.
Proof.
  intros Hmi. unfold ready.
  apply (and_then_frame (fun r' => menu_items r' = menu_items r)).
  { by destruct (register_search_all _ _). }
  intros r1 H1. apply (and_then_frame (fun r' => menu_items r' = menu_items r)).
  { destruct (template_extensions_obj p) as [l|]; [|done].
    rewrite <- H1. apply register_template_extensions_other. }
  intros r2 H2. apply (and_then_frame (fun r' => menu_items r' = menu_items r)).
  { destruct (py_bool (menu_obj p)); [|done].
    rewrite <- H2. apply register_menu_frame. }
  intros r3 H3. apply (and_then_frame (fun r' => menu_items r' = menu_items r)).
  { by destruct Hmi as [-> | ->]. }
  intros r4 H4. apply (and_then_frame (fun r' => menu_items r' = menu_items r)).
  { by destruct (graphql_schema_obj p). }
  intros r5 H5. by destruct (user_preferences_obj p).
Qed.

Lemma ready_empty_menu_items_keeps_witness :
  menu_items (snd (ready (fun _ => None) py_truthy quiet_plugin registry_with_items))
    = menu_items registry_with_items.
Proof. apply ready_empty_menu_items_keeps. by right. Defined.

(** A successful [ready] has exactly these effects: the menu is appended
    when it is truthy, the non-empty menu item list is stored under the
    plugin's [verbose_name], the GraphQL schema is appended when it is not
    [None], and the user preferences are stored under the last dotted
    component of the plugin's [name]. *)
Theorem ready_success_effects (register_search : obj -> option exc) (py_bool : obj -> bool) (p : PluginModule)
    (r r' : Registry) :
  ready register_search py_bool p r = (None, r') ->
  menus r' = menus r ++ (if py_bool (menu_obj p) then [menu_obj p] else []) /\
  menu_items r' = match menu_items_obj p with
                  | Some ((_ :: _) as items) => <[verbose_name p := items]> (menu_items r)
                  | _ => menu_items r
                  end /\
  graphql_schemas r' = graphql_schemas r ++ match graphql_schema_obj p with
                                             | ONone => []
                                             | g => [g]
                                             end /\
  preferences r' = match user_preferences_obj p with
                   | ONone => preferences r
                   | u => <[rsplit_dot_last (name p) := u]> (preferences r)
                   end.
Proof.
  unfold ready. intros H.
  apply and_then_none in H as (r1 & H1 & H).
  assert (r1 = r) as -> by (destruct (register_search_all _ _); congruence).
  apply and_then_none in H as (r2 & H2 & H).
  assert (E2 : menus r2 = menus r /\ menu_items r2 = menu_items r /\
               graphql_schemas r2 = graphql_schemas r /\ preferences r2 = preferences r).
  { destruct (template_extensions_obj p) as [l|]; [|by injection H2 as <-].
    pose proof (register_template_extensions_other l r) as (G1 & G2 & G3 & G4).
    rewrite H2 in G1, G2, G3, G4. simpl in *. auto. }
  clear H2. destruct E2 as (M2 & I2 & G2 & P2).
  apply and_then_none in H as (r3 & H3 & H).
  assert (E3 : menus r3 = menus r ++ (if py_bool (menu_obj p) then [menu_obj p] else []) /\
               menu_items r3 = menu_items r /\
               graphql_schemas r3 = graphql_schemas r /\ preferences r3 = preferences r).
  { destruct (py_bool (menu_obj p)).
    - unfold register_menu in H3.
      destruct (isinstance (menu_obj p) TPluginMenu); simpl in H3; [|discriminate].
      injection H3 as <-. simpl. rewrite M2. auto.
    - injection H3 as <-. rewrite app_nil_r. auto. }
  clear H3 M2 I2 G2 P2. destruct E3 as (M3 & I3 & G3 & P3).
  apply and_then_none in H as (r4 & H4 & H).
  assert (E4 : menus r4 = menus r3 /\
               menu_items r4 = match menu_items_obj p with
                               | Some ((_ :: _) as items) => <[verbose_name p := items]> (menu_items r)
                               | _ => menu_items r
                               end /\
               graphql_schemas r4 = graphql_schemas r3 /\ preferences r4 = preferences r3).
  { destruct (menu_items_obj p) as [[|o os]|]; try (injection H4 as <-; auto).
    unfold register_menu_items in H4.
    destruct (check_menu_items _); [discriminate|].
    injection H4 as <-. simpl. rewrite I3. auto. }
  clear H4. destruct E4 as (M4 & I4 & G4 & P4).
  apply and_then_none in H as (r5 & H5 & H).
  assert (E5 : menus r5 = menus r4 /\ menu_items r5 = menu_items r4 /\
               graphql_schemas r5 = graphql_schemas r ++ match graphql_schema_obj p with
                                                         | ONone => []
                                                         | g => [g]
                                                         end /\
               preferences r5 = preferences r4).
  { destruct (graphql_schema_obj p); injection H5 as <-; simpl;
      rewrite ?G4, ?G3, ?app_nil_r; auto. }
  clear H5. destruct E5 as (M5 & I5 & G5 & P5).
  destruct (user_preferences_obj p); injection H as <-; simpl;
    rewrite ?M5, ?M4, ?I5, ?I4, ?G5, ?P5, ?P4, ?P3; auto.
Qed.

Definition acme_plugin : PluginModule := {|
  name := "netbox_acme";
  verbose_name := "Acme";
  search_indexes_obj := Some [OOther (TSub "netbox_acme.search.ThingIndex" TObject)];
  template_extensions_obj := Some [ext_a];
  menu_obj := ONone;
  menu_items_obj := Some [item_list];
  graphql_schema_obj := OOther (TSub "netbox_acme.graphql.Query" TObject);
  user_preferences_obj := OOther TObject
|}.

Lemma ready_success_effects_witness :
  let r' := snd (ready (fun _ => None) py_truthy acme_plugin empty_registry) in
  menus r' = menus empty_registry ++ [] /\
  menu_items r' = <[ "Acme" := [item_list] ]> (menu_items empty_registry) /\
  graphql_schemas r' = graphql_schemas empty_registry
                         ++ [OOther (TSub "netbox_acme.graphql.Query" TObject)] /\
  preferences r' = <[ "netbox_acme" := OOther TObject ]> (preferences empty_registry).
Proof.
  apply (ready_success_effects (fun _ => None) py_truthy acme_plugin empty_registry).
  reflexivity.
Defined.

(** [register_template_extensions] never changes the GraphQL schemas, the
    menus, the menu items or the user preferences of the registry, whether
    it succeeds or raises. *)
Theorem register_template_extensions_frame (class_list : list candidate) (r : Registry) :
  graphql_schemas (snd (register_template_extensions class_list r)) = graphql_schemas r /\
  menus (snd (register_template_extensions class_list r)) = menus r /\
  menu_items (snd (register_template_extensions class_list r)) = menu_items r /\
  preferences (snd (register_template_extensions class_list r)) = preferences r.
Proof. apply register_template_extensions_other. Qed.
